(** * Neo Snake: the screen controller of [App]

    A shallow embedding of the top-level [App] component: the React state
    cells it owns, the three zustand stores it talks to, and every event
    handler it passes to its children.  Handlers are written in a small
    state monad over a [World] that holds the component state, the stores
    and the trace of calls made to collaborators that live outside the
    component.

    JavaScript numbers that the component only copies, compares with [0] or
    increments ([lives], [score], [level], [gameKey], ...) are modelled as
    [Z]. *)

From Stdlib Require Import ZArith List Bool String Lia.
Import ListNotations.
Open Scope Z_scope.

(** ** Data model *)

(** [type Screen = 'menu' | 'game' | 'gameover' | 'adventureMap'] *)
Inductive Screen : Type := Menu | Game | GameOver | AdventureMap.

(** [GameMode] of the user store; the component uses ['classic'] and
    ['adventure']. *)
Inductive GameMode : Type := Classic | Adventure.

(** Modelled from the spec: [Direction] is declared in [engine/types], which
    is not part of the sources; the D-Pad has four directions. *)
Inductive Direction : Type := DirUp | DirDown | DirLeft | DirRight.

(** Modelled from the spec: [SnakeConfig] is declared in [engine/types].  The
    component reads a single field of it, the optional [extraLives]; the
    name identifies the cosmetic variant. *)
Record SnakeConfig : Type := mkSnake {
  snakeName : string;
  extraLives : option Z
}.

(** Modelled from the spec: the fields of the session store ([useGameStore]).
    These are exactly the fields [handlePlayAgain] reads or writes. *)
Record GameState : Type := mkGameState {
  isPlaying : bool;
  isPaused : bool;
  isGameOver : bool;
  score : Z;
  lives : Z;
  level : Z;
  lastPlayedLevel : Z;
  catHitsThisLevel : Z;
  isFirstGame : bool;
  isDying : bool;
  isStunned : bool;
  stunEndTime : Z
}.

(** The argument of [useGameStore.setState]: an object literal naming some of
    the fields.  A field that the literal does not mention is [None]. *)
Record GamePatch : Type := mkGamePatch {
  p_isPlaying : option bool;
  p_isPaused : option bool;
  p_isGameOver : option bool;
  p_score : option Z;
  p_lives : option Z;
  p_level : option Z;
  p_lastPlayedLevel : option Z;
  p_catHitsThisLevel : option Z;
  p_isFirstGame : option bool;
  p_isDying : option bool;
  p_isStunned : option bool;
  p_stunEndTime : option Z
}.

Definition patched {A : Type} (new : option A) (old : A) : A :=
  match new with
  | Some v => v
  | None => old
  end.

(** zustand's [setState(partial)]: a shallow merge of the patch into the
    current state. *)
Definition applyPatch (p : GamePatch) (g : GameState) : GameState :=
  {| isPlaying := patched (p_isPlaying p) (isPlaying g);
     isPaused := patched (p_isPaused p) (isPaused g);
     isGameOver := patched (p_isGameOver p) (isGameOver g);
     score := patched (p_score p) (score g);
     lives := patched (p_lives p) (lives g);
     level := patched (p_level p) (level g);
     lastPlayedLevel := patched (p_lastPlayedLevel p) (lastPlayedLevel g);
     catHitsThisLevel := patched (p_catHitsThisLevel p) (catHitsThisLevel g);
     isFirstGame := patched (p_isFirstGame p) (isFirstGame g);
     isDying := patched (p_isDying p) (isDying g);
     isStunned := patched (p_isStunned p) (isStunned g);
     stunEndTime := patched (p_stunEndTime p) (stunEndTime g) |}.

(** Modelled from the spec: the user progress store ([useUserStore]) keeps the
    D-Pad preference and the unlocked adventure levels. *)
Record UserStore : Type := mkUserStore {
  dpadEnabled : bool;
  unlockedLevel : Z
}.

(** The [useState] cells of [App]. *)
Record ScreenState : Type := mkScreenState {
  screen : Screen;
  showShop : bool;
  showSettings : bool;
  showPauseMenu : bool;
  currentSnake : option SnakeConfig;
  currentMode : GameMode;
  gameKey : Z;
  justUnlockedLevel : option Z
}.

(** A direction handler is a closure created by the engine; the component
    only stores it and calls it, so it is identified by a number. *)
Definition DirectionCallback : Type := nat.

(** Calls that leave the component: store operations, the registered
    direction handler, and the console. *)
Inductive Call : Type :=
| CallStartGame (snake : option SnakeConfig) (mode : GameMode) (lvl : option Z)
| CallReset
| CallPauseGame
| CallResumeGame
| CallSetState (patch : GamePatch)
| CallUnlockNextLevel
| CallDirection (cb : DirectionCallback) (dir : Direction)
| CallConsoleLog (msg : string) (arg : Z).

Record World : Type := mkWorld {
  ui : ScreenState;
  directionCallbackRef : option DirectionCallback;
  game : GameState;
  selectedSnake : option SnakeConfig;
  user : UserStore;
  calls : list Call
}.

Definition isCallReset (c : Call) : bool :=
  match c with CallReset => true | _ => false end.

Definition isCallUnlockNextLevel (c : Call) : bool :=
  match c with CallUnlockNextLevel => true | _ => false end.

Definition count (f : Call -> bool) (l : list Call) : nat :=
  List.length (List.filter f l).

(** ** The handler monad *)

Definition Handler (A : Type) : Type := World -> A * World.

Definition ret {A : Type} (a : A) : Handler A := fun w => (a, w).

Definition bind {A B : Type} (m : Handler A) (k : A -> Handler B) : Handler B :=
  fun w => let (a, w') := m w in k a w'.

Declare Scope handler_scope.
Delimit Scope handler_scope with handler.
Notation "x <- m ;; k" := (bind m (fun x => k))
  (at level 61, m at next level, right associativity) : handler_scope.
Notation "m ;; k" := (bind m (fun _ => k))
  (at level 61, right associativity) : handler_scope.
Open Scope handler_scope.

Definition exec {A : Type} (m : Handler A) (w : World) : World := snd (m w).

(** The calls a handler makes when it runs from [w]. *)
Definition issued {A : Type} (m : Handler A) (w : World) : list Call :=
  skipn (List.length (calls w)) (calls (exec m w)).

Definition modifyUi (f : ScreenState -> ScreenState) : Handler unit :=
  fun w => (tt, mkWorld (f (ui w)) (directionCallbackRef w) (game w)
                        (selectedSnake w) (user w) (calls w)).

Definition modifyGame (f : GameState -> GameState) : Handler unit :=
  fun w => (tt, mkWorld (ui w) (directionCallbackRef w) (f (game w))
                        (selectedSnake w) (user w) (calls w)).

Definition modifyUser (f : UserStore -> UserStore) : Handler unit :=
  fun w => (tt, mkWorld (ui w) (directionCallbackRef w) (game w)
                        (selectedSnake w) (f (user w)) (calls w)).

Definition setRef (r : option DirectionCallback) : Handler unit :=
  fun w => (tt, mkWorld (ui w) r (game w) (selectedSnake w) (user w) (calls w)).

Definition emit (c : Call) : Handler unit :=
  fun w => (tt, mkWorld (ui w) (directionCallbackRef w) (game w)
                        (selectedSnake w) (user w) (calls w ++ [c])).

(** *** State setters of the component *)

Definition setScreen (s : Screen) : Handler unit :=
  modifyUi (fun u => mkScreenState s (showShop u) (showSettings u)
    (showPauseMenu u) (currentSnake u) (currentMode u) (gameKey u)
    (justUnlockedLevel u)).

Definition setShowShop (b : bool) : Handler unit :=
  modifyUi (fun u => mkScreenState (screen u) b (showSettings u)
    (showPauseMenu u) (currentSnake u) (currentMode u) (gameKey u)
    (justUnlockedLevel u)).

Definition setShowSettings (b : bool) : Handler unit :=
  modifyUi (fun u => mkScreenState (screen u) (showShop u) b
    (showPauseMenu u) (currentSnake u) (currentMode u) (gameKey u)
    (justUnlockedLevel u)).

Definition setShowPauseMenu (b : bool) : Handler unit :=
  modifyUi (fun u => mkScreenState (screen u) (showShop u) (showSettings u)
    b (currentSnake u) (currentMode u) (gameKey u) (justUnlockedLevel u)).

Definition setCurrentSnake (s : option SnakeConfig) : Handler unit :=
  modifyUi (fun u => mkScreenState (screen u) (showShop u) (showSettings u)
    (showPauseMenu u) s (currentMode u) (gameKey u) (justUnlockedLevel u)).

Definition setCurrentMode (m : GameMode) : Handler unit :=
  modifyUi (fun u => mkScreenState (screen u) (showShop u) (showSettings u)
    (showPauseMenu u) (currentSnake u) m (gameKey u) (justUnlockedLevel u)).

(** [setGameKey] is only called with an updater function. *)
Definition setGameKey (f : Z -> Z) : Handler unit :=
  modifyUi (fun u => mkScreenState (screen u) (showShop u) (showSettings u)
    (showPauseMenu u) (currentSnake u) (currentMode u) (f (gameKey u))
    (justUnlockedLevel u)).

Definition setJustUnlockedLevel (l : option Z) : Handler unit :=
  modifyUi (fun u => mkScreenState (screen u) (showShop u) (showSettings u)
    (showPauseMenu u) (currentSnake u) (currentMode u) (gameKey u) l).

(** *** Store accessors that need no store code *)

(** [useShopStore().getSelectedSnake()] *)
Definition getSelectedSnake : Handler (option SnakeConfig) :=
  fun w => (selectedSnake w, w).

(** [useGameStore.getState()] *)
Definition getState : Handler GameState := fun w => (game w, w).

(** [useGameStore.setState(patch)] *)
Definition setState (p : GamePatch) : Handler unit :=
  emit (CallSetState p) ;; modifyGame (applyPatch p).

Definition consoleLog (msg : string) (arg : Z) : Handler unit :=
  emit (CallConsoleLog msg arg).

(** Modelled from the spec: [pauseGame] of the session store, which is not
    part of the sources; it pauses the session, [isPaused = true]. *)
Definition store_pauseGame (g : GameState) : GameState :=
  applyPatch (mkGamePatch None (Some true) None None None None None None
                          None None None None) g.

(** Modelled from the spec: [resumeGame] of the session store, which is not
    part of the sources; it clears [isPaused]. *)
Definition store_resumeGame (g : GameState) : GameState :=
  applyPatch (mkGamePatch None (Some false) None None None None None None
                          None None None None) g.

Definition pauseGame : Handler unit :=
  emit CallPauseGame ;; modifyGame store_pauseGame.

Definition resumeGame : Handler unit :=
  emit CallResumeGame ;; modifyGame store_resumeGame.

(** [x || 0] on an optional number: [undefined] and [0] are falsy. *)
Definition orZero (x : option Z) : Z :=
  match x with
  | Some n => if n =? 0 then 0 else n
  | None => 0
  end.

(** ** The component *)

Section App.

(** The session store's [startGame] and [reset] and the progress store's
    [unlockNextLevel] are not part of the sources: the component is
    verified for every implementation of them. *)
Variable store_startGame :
  option SnakeConfig -> GameMode -> option Z -> GameState -> GameState.
Variable store_reset : GameState -> GameState.
Variable store_unlockNextLevel : UserStore -> UserStore.

Definition startGame (snake : option SnakeConfig) (mode : GameMode)
    (lvl : option Z) : Handler unit :=
  emit (CallStartGame snake mode lvl) ;;
  modifyGame (store_startGame snake mode lvl).

Definition reset : Handler unit :=
  emit CallReset ;; modifyGame store_reset.

Definition unlockNextLevel : Handler unit :=
  emit CallUnlockNextLevel ;; modifyUser store_unlockNextLevel.

Definition handleStartGame (snake : SnakeConfig) (mode : GameMode)
    : Handler unit :=
  setCurrentSnake (Some snake) ;;
  setCurrentMode mode ;;
  startGame (Some snake) mode None ;;
  setScreen Game.

Definition handleGameOver : Handler unit :=
  setScreen GameOver.

Definition handleLevelUp (_level : Z) : Handler unit :=
  ret tt.

(** The object literal passed to [setState] by [handlePlayAgain]. *)
Definition retryPatch (store : GameState) (isFullReset : bool)
    (totalLives : Z) : GamePatch :=
  {| p_isPlaying := Some true;
     p_isPaused := Some false;
     p_isGameOver := Some false;
     p_score := Some (if isFullReset then 0 else score store);
     p_catHitsThisLevel :=
       Some (if isFullReset then 0 else catHitsThisLevel store);
     p_level :=
       Some (if isFullReset then lastPlayedLevel store else level store);
     p_lives := Some (if isFullReset then totalLives else lives store);
     p_isFirstGame :=
       Some (if isFullReset then true else isFirstGame store);
     p_isDying := Some false;
     p_isStunned := Some false;
     p_stunEndTime := Some 0;
     p_lastPlayedLevel := None |}.

Definition handlePlayAgain : Handler unit :=
  snake <- getSelectedSnake ;;
  match snake with
  | None => ret tt
  | Some sn =>
      store <- getState ;;
      let currentLives := lives store in
      let isFullReset := currentLives =? 0 in
      setCurrentSnake (Some sn) ;;
      let snakeExtraLives := orZero (extraLives sn) in
      let totalLives := 3 + snakeExtraLives in
      setState (retryPatch store isFullReset totalLives) ;;
      (if isFullReset then setGameKey (fun k => k + 1) else ret tt) ;;
      setScreen Game
  end.

Definition handleMainMenu : Handler unit :=
  reset ;;
  setShowPauseMenu false ;;
  setScreen Menu.

Definition handlePauseGame : Handler unit :=
  pauseGame ;;
  setShowPauseMenu true.

Definition handleResumeGame : Handler unit :=
  setShowPauseMenu false ;;
  resumeGame.

Definition handleOpenSettingsFromPause : Handler unit :=
  setShowSettings true.

Definition handleDpadPress (direction : Direction) : Handler unit :=
  fun w =>
    match directionCallbackRef w with
    | Some callback => emit (CallDirection callback direction) w
    | None => ret tt w
    end.

Definition setDirectionCallback (callback : DirectionCallback)
    : Handler unit :=
  setRef (Some callback).

Definition handleAdventureLevelComplete (completedLevel : Z)
    : Handler unit :=
  consoleLog "[Adventure] Level completed:" completedLevel ;;
  unlockNextLevel.

(** *** Inline handlers of the render tree *)

Definition onOpenShop : Handler unit := setShowShop true.
Definition onOpenSettings : Handler unit := setShowSettings true.
Definition onOpenAdventureMap : Handler unit := setScreen AdventureMap.

Definition onSelectLevel (lvl : Z) : Handler unit :=
  consoleLog "[DEBUG App] Starting adventure at level:" lvl ;;
  snake <- getSelectedSnake ;;
  setCurrentSnake snake ;;
  setCurrentMode Adventure ;;
  startGame snake Adventure (Some lvl) ;;
  store <- getState ;;
  consoleLog "[DEBUG App] After startGame, gameStore level:" (level store) ;;
  setJustUnlockedLevel None ;;
  setScreen Game.

Definition onBack : Handler unit := setScreen Menu.
Definition onCloseShop : Handler unit := setShowShop false.
Definition onCloseSettings : Handler unit := setShowSettings false.

(** *** What is rendered, and which handlers can therefore fire *)

Inductive Component : Type :=
| CMainMenu | CAdventureMap | CGameHUD | CGameCanvas | CDPad
| CGameOverModal | CPauseMenu | CShopModal | CSettingsModal.

Definition isSome {A : Type} (o : option A) : bool :=
  match o with Some _ => true | None => false end.

Definition onScreen (s : Screen) (w : World) : bool :=
  match screen (ui w), s with
  | Menu, Menu | Game, Game | GameOver, GameOver
  | AdventureMap, AdventureMap => true
  | _, _ => false
  end.

(** The [game-screen] block: [(screen === 'game' || screen === 'gameover')
    && currentSnake]. *)
Definition gameScreenShown (w : World) : bool :=
  (onScreen Game w || onScreen GameOver w) && isSome (currentSnake (ui w)).

Definition mounted (c : Component) (w : World) : bool :=
  match c with
  | CMainMenu => onScreen Menu w
  | CAdventureMap => onScreen AdventureMap w
  | CGameHUD => gameScreenShown w
  | CGameCanvas => gameScreenShown w
  | CDPad =>
      gameScreenShown w &&
      (dpadEnabled (user w) && isPlaying (game w)
       && negb (isPaused (game w)) && onScreen Game w)
  | CGameOverModal => gameScreenShown w && onScreen GameOver w
  | CPauseMenu => showPauseMenu (ui w)
  | CShopModal => showShop (ui w)
  | CSettingsModal => showSettings (ui w)
  end.

(** The [showPauseButton] prop of the HUD. *)
Definition showPauseButton (w : World) : bool :=
  isPlaying (game w) && negb (isPaused (game w)) && onScreen Game w.

(** A callback prop of a rendered child being invoked. *)
Inductive Event : Type :=
| EvStartGame (snake : SnakeConfig) (mode : GameMode)
| EvOpenShop
| EvOpenSettings
| EvOpenAdventureMap
| EvSelectLevel (lvl : Z)
| EvBack
| EvPause
| EvGameOver
| EvLevelUp (lvl : Z)
| EvAdventureLevelComplete (lvl : Z)
| EvDirectionCallbackReady (callback : DirectionCallback)
| EvDpadPress (dir : Direction)
| EvPlayAgain
| EvMainMenuFromGameOver
| EvResume
| EvSettingsFromPause
| EvMainMenuFromPause
| EvCloseShop
| EvCloseSettings.

Definition source (e : Event) : Component :=
  match e with
  | EvStartGame _ _ | EvOpenShop | EvOpenSettings | EvOpenAdventureMap =>
      CMainMenu
  | EvSelectLevel _ | EvBack => CAdventureMap
  | EvPause => CGameHUD
  | EvGameOver | EvLevelUp _ | EvAdventureLevelComplete _
  | EvDirectionCallbackReady _ => CGameCanvas
  | EvDpadPress _ => CDPad
  | EvPlayAgain | EvMainMenuFromGameOver => CGameOverModal
  | EvResume | EvSettingsFromPause | EvMainMenuFromPause => CPauseMenu
  | EvCloseShop => CShopModal
  | EvCloseSettings => CSettingsModal
  end.

Definition handler (e : Event) : Handler unit :=
  match e with
  | EvStartGame snake mode => handleStartGame snake mode
  | EvOpenShop => onOpenShop
  | EvOpenSettings => onOpenSettings
  | EvOpenAdventureMap => onOpenAdventureMap
  | EvSelectLevel lvl => onSelectLevel lvl
  | EvBack => onBack
  | EvPause => handlePauseGame
  | EvGameOver => handleGameOver
  | EvLevelUp lvl => handleLevelUp lvl
  | EvAdventureLevelComplete lvl => handleAdventureLevelComplete lvl
  | EvDirectionCallbackReady callback => setDirectionCallback callback
  | EvDpadPress dir => handleDpadPress dir
  | EvPlayAgain => handlePlayAgain
  | EvMainMenuFromGameOver => handleMainMenu
  | EvResume => handleResumeGame
  | EvSettingsFromPause => handleOpenSettingsFromPause
  | EvMainMenuFromPause => handleMainMenu
  | EvCloseShop => onCloseShop
  | EvCloseSettings => onCloseSettings
  end.

Definition enabled (e : Event) (w : World) : bool := mounted (source e) w.

(** The initial render: [useState] defaults and a null ref, over whatever
    the stores hold. *)
Definition initialScreenState : ScreenState :=
  {| screen := Menu; showShop := false; showSettings := false;
     showPauseMenu := false; currentSnake := None; currentMode := Classic;
     gameKey := 0; justUnlockedLevel := None |}.

Definition initialWorld (g : GameState) (sel : option SnakeConfig)
    (u : UserStore) : World :=
  {| ui := initialScreenState; directionCallbackRef := None; game := g;
     selectedSnake := sel; user := u; calls := [] |}.

(** One step of the application: a rendered child fires one of its
    callbacks, or code outside the component (the engine, the shop, the
    settings dialog) writes to one of the stores. *)
Inductive step : World -> World -> Prop :=
| step_event (e : Event) (w : World) :
    enabled e w = true -> step w (exec (handler e) w)
| step_stores (w : World) (g : GameState) (sel : option SnakeConfig)
    (u : UserStore) :
    step w (mkWorld (ui w) (directionCallbackRef w) g sel u (calls w)).

Inductive reachable : World -> Prop :=
| reachable_init g sel u : reachable (initialWorld g sel u)
| reachable_step w w' : reachable w -> step w w' -> reachable w'.

(** The snake invariant of the spec. *)
Definition snakeInvariant (w : World) : Prop :=
  screen (ui w) = Game \/ screen (ui w) = GameOver ->
  currentSnake (ui w) <> None.

(** The pause invariant of the spec. *)
Definition pauseInvariant (w : World) : Prop :=
  showPauseMenu (ui w) = true -> isPaused (game w) = true.

End App.

(** ** Sample data for concrete runs *)

Definition neonSnake (extra : option Z) : SnakeConfig :=
  {| snakeName := "neon"; extraLives := extra |}.

(** A session that ended at level 6 after starting the attempt at level 4. *)
Definition session (livesLeft points : Z) : GameState :=
  {| isPlaying := false; isPaused := false; isGameOver := true;
     score := points; lives := livesLeft; level := 6; lastPlayedLevel := 4;
     catHitsThisLevel := 2; isFirstGame := false; isDying := true;
     isStunned := true; stunEndTime := 9000 |}.

Definition sampleUser : UserStore :=
  {| dpadEnabled := true; unlockedLevel := 4 |}.

Definition worldAt (s : Screen) (cur sel : option SnakeConfig)
    (g : GameState) : World :=
  {| ui := {| screen := s; showShop := false; showSettings := false;
              showPauseMenu := false; currentSnake := cur;
              currentMode := Adventure; gameKey := 7;
              justUnlockedLevel := Some 5 |};
     directionCallbackRef := Some 1%nat; game := g; selectedSnake := sel;
     user := sampleUser; calls := [] |}.

(** The spec's full-reset scenario: [extraLives = 2], no lives left, the
    attempt began at level 4 and ended at level 6, epoch 7. *)
Definition fullResetWorld : World :=
  worldAt GameOver (Some (neonSnake None)) (Some (neonSnake (Some 2)))
          (session 0 1500).

(** The spec's partial-retry scenario: [extraLives = 0], one life left,
    1500 points. *)
Definition partialRetryWorld : World :=
  worldAt GameOver (Some (neonSnake (Some 0))) (Some (neonSnake (Some 0)))
          (session 1 1500).

(** Modelled from the spec: a session store to run the component on concrete
    inputs.  The spec says that [reset] restores the defaults and that
    [startGame] initialises lives, score and level, without giving the
    values; the values here are one choice, and no general theorem depends
    on them. *)
Definition defaultSession : GameState :=
  {| isPlaying := false; isPaused := false; isGameOver := false;
     score := 0; lives := 3; level := 1; lastPlayedLevel := 1;
     catHitsThisLevel := 0; isFirstGame := true; isDying := false;
     isStunned := false; stunEndTime := 0 |}.

Definition sample_reset (_ : GameState) : GameState := defaultSession.

Definition sample_startGame (snake : option SnakeConfig) (_ : GameMode)
    (lvl : option Z) (_ : GameState) : GameState :=
  let start := match lvl with Some l => l | None => 1 end in
  {| isPlaying := true; isPaused := false; isGameOver := false;
     score := 0;
     lives := 3 + match snake with
                  | Some sn => orZero (extraLives sn)
                  | None => 0
                  end;
     level := start; lastPlayedLevel := start;
     catHitsThisLevel := 0; isFirstGame := true; isDying := false;
     isStunned := false; stunEndTime := 0 |}.

Definition sample_unlockNextLevel (u : UserStore) : UserStore :=
  {| dpadEnabled := dpadEnabled u; unlockedLevel := unlockedLevel u + 1 |}.

(** The adventure map is open and the selection store has no snake. *)
Definition mapWithoutSelection : World :=
  worldAt AdventureMap None None defaultSession.

(** ** The claims that fail as stated, and frames *)

(** The claim that every handler [e] that takes the component to the menu
    from another screen resets the session while doing so. *)
Definition resetsSessionOnMenuEntry sg rs un (e : Event) : Prop :=
  forall w : World,
    enabled e w = true ->
    screen (ui w) <> Menu ->
    screen (ui (exec (handler sg rs un e) w)) = Menu ->
    game (exec (handler sg rs un e) w) = rs (game w) /\
    count isCallReset (issued (handler sg rs un e) w) = 1%nat.

(** A game-over session seen from the adventure map. *)
Definition mapAfterGame : World :=
  worldAt AdventureMap None (Some (neonSnake None)) (session 1 1500).

(** The claim that pausing and then resuming gives [isPaused] and
    [showPauseMenu] their values of before the pause. *)
Definition pauseResumeRestores (w : World) : Prop :=
  isPaused (game (exec handleResumeGame (exec handlePauseGame w)))
    = isPaused (game w) /\
  showPauseMenu (ui (exec handleResumeGame (exec handlePauseGame w)))
    = showPauseMenu (ui w).

(** The pause menu is already open over a paused game. *)
Definition pausedWorld : World :=
  {| ui := {| screen := Game; showShop := false; showSettings := false;
              showPauseMenu := true;
              currentSnake := Some (neonSnake None);
              currentMode := Classic; gameKey := 0;
              justUnlockedLevel := None |};
     directionCallbackRef := Some 1%nat;
     game := store_pauseGame (sample_startGame (Some (neonSnake None))
                                Classic None defaultSession);
     selectedSnake := Some (neonSnake None);
     user := sampleUser; calls := [] |}.

(** The game is running and the pause button is shown. *)
Definition runningWorld : World :=
  {| ui := {| screen := Game; showShop := false; showSettings := false;
              showPauseMenu := false;
              currentSnake := Some (neonSnake None);
              currentMode := Classic; gameKey := 0;
              justUnlockedLevel := None |};
     directionCallbackRef := Some 1%nat;
     game := sample_startGame (Some (neonSnake None)) Classic None
               defaultSession;
     selectedSnake := Some (neonSnake None);
     user := sampleUser; calls := [] |}.

(** Nothing outside the component state is touched. *)
Definition storesKept (w w' : World) : Prop :=
  directionCallbackRef w' = directionCallbackRef w /\
  game w' = game w /\
  selectedSnake w' = selectedSnake w /\
  user w' = user w /\
  calls w' = calls w.

Definition withShowShop (b : bool) (u : ScreenState) : ScreenState :=
  {| screen := screen u; showShop := b; showSettings := showSettings u;
     showPauseMenu := showPauseMenu u; currentSnake := currentSnake u;
     currentMode := currentMode u; gameKey := gameKey u;
     justUnlockedLevel := justUnlockedLevel u |}.

Definition withShowSettings (b : bool) (u : ScreenState) : ScreenState :=
  {| screen := screen u; showShop := showShop u; showSettings := b;
     showPauseMenu := showPauseMenu u; currentSnake := currentSnake u;
     currentMode := currentMode u; gameKey := gameKey u;
     justUnlockedLevel := justUnlockedLevel u |}.

(** ** The rendered engine host *)

(** The props [App] passes to [GameCanvas]: [key], [snakeConfig] and
    [gameMode]. *)
Record CanvasProps : Type := mkCanvasProps {
  canvasKey : Z;
  snakeConfig : SnakeConfig;
  gameMode : GameMode
}.

(** The [GameCanvas] element of the render tree, if there is one: it sits in
    the block guarded by [(screen === 'game' || screen === 'gameover') &&
    currentSnake]. *)
Definition gameCanvas (w : World) : option CanvasProps :=
  if onScreen Game w || onScreen GameOver w then
    match currentSnake (ui w) with
    | Some sn => Some (mkCanvasProps (gameKey (ui w)) sn (currentMode (ui w)))
    | None => None
    end
  else None.

(** React keeps the instance of a keyed element from one render to the next
    when the element is rendered in both with the same key; otherwise the
    engine is mounted afresh or not at all. *)
Definition keepsCanvas (w w' : World) : bool :=
  match gameCanvas w, gameCanvas w' with
  | Some p, Some p' => canvasKey p =? canvasKey p'
  | _, _ => false
  end.

(** Nothing is rendered: the game block is skipped for want of a snake, and
    no overlay is open. *)
Definition blank (w : World) : bool :=
  (onScreen Game w || onScreen GameOver w)
  && negb (isSome (currentSnake (ui w)))
  && negb (showPauseMenu (ui w))
  && negb (showShop (ui w))
  && negb (showSettings (ui w)).


(** The handlers that can mount, unmount or re-key the engine host. *)
Definition changesCanvas (e : Event) : bool :=
  match e with
  | EvStartGame _ _ | EvSelectLevel _ | EvPlayAgain
  | EvMainMenuFromGameOver | EvMainMenuFromPause => true
  | _ => false
  end.

(** The adventure map is open and a snake with one extra life is
    selected. *)
Definition mapWithSelection : World :=
  worldAt AdventureMap None (Some (neonSnake (Some 1))) defaultSession.

(** The game-over dialog is open over the pause menu. *)
Definition gameOverWorld (livesLeft : Z) : World :=
  {| ui := {| screen := GameOver; showShop := false; showSettings := false;
              showPauseMenu := true;
              currentSnake := Some (neonSnake None);
              currentMode := Adventure; gameKey := 3;
              justUnlockedLevel := None |};
     directionCallbackRef := Some 2%nat;
     game := session livesLeft 40;
     selectedSnake := Some (neonSnake (Some 1));
     user := sampleUser; calls := [] |}.

(** The states the application reaches while the selection store holds a
    snake at every step, as the shop is expected to guarantee. *)
Inductive reachableWithSelection
    (sg : option SnakeConfig -> GameMode -> option Z -> GameState -> GameState)
    (rs : GameState -> GameState) (un : UserStore -> UserStore)
    : World -> Prop :=
| selected_init g sel u :
    reachableWithSelection sg rs un (initialWorld g sel u)
| selected_step w w' :
    reachableWithSelection sg rs un w ->
    selectedSnake w <> None ->
    step sg rs un w w' ->
    reachableWithSelection sg rs un w'.

(** ** Basic facts about the monad and the patch *)

Lemma orZero_default (x : option Z) :
  orZero x = match x with Some n => n | None => 0 end.
Proof.
  destruct x as [n|]; cbn; [|reflexivity].
  destruct (Z.eqb_spec n 0); congruence.
Qed.

Lemma applyPatch_lastPlayedLevel (p : GamePatch) (g : GameState) :
  p_lastPlayedLevel p = None ->
  lastPlayedLevel (applyPatch p g) = lastPlayedLevel g.
Proof. intros H; cbn; rewrite H; reflexivity. Qed.

Lemma issued_app {A : Type} (m : Handler A) (w : World) (l : list Call) :
  calls (exec m w) = calls w ++ l -> issued m w = l.
Proof.
  intros H; unfold issued; rewrite H.
  rewrite skipn_app, skipn_all, Nat.sub_diag; reflexivity.
Qed.

(** ** The retry policy *)

(** What [handlePlayAgain] does when a snake is selected, both branches. *)
Lemma handlePlayAgain_selected (w : World) (sn : SnakeConfig) :
  selectedSnake w = Some sn ->
  exec handlePlayAgain w =
    let isFullReset := lives (game w) =? 0 in
    let p := retryPatch (game w) isFullReset (3 + orZero (extraLives sn)) in
    {| ui := {| screen := Game;
                showShop := showShop (ui w);
                showSettings := showSettings (ui w);
                showPauseMenu := showPauseMenu (ui w);
                currentSnake := Some sn;
                currentMode := currentMode (ui w);
                gameKey := if isFullReset then gameKey (ui w) + 1
                           else gameKey (ui w);
                justUnlockedLevel := justUnlockedLevel (ui w) |};
       directionCallbackRef := directionCallbackRef w;
       game := applyPatch p (game w);
       selectedSnake := selectedSnake w;
       user := user w;
       calls := calls w ++ [CallSetState p] |}.
Proof.
  intros Hsel. destruct w as [u r g sel us cs]. cbn in Hsel. subst sel.
  unfold exec, handlePlayAgain, bind, getSelectedSnake. cbn.
  destruct (lives g =? 0); reflexivity.
Qed.

(** Without a selection [handlePlayAgain] returns at once. *)
Lemma handlePlayAgain_unselected (w : World) :
  selectedSnake w = None -> exec handlePlayAgain w = w.
Proof.
  intros Hsel. destruct w as [u r g sel us cs]. cbn in Hsel. subst sel.
  reflexivity.
Qed.

(** C1.  A retry with a snake selected and no lives left is a full reset:
    the session gets [3 + extraLives] lives of the selected snake (which
    becomes the active one; a missing [extraLives] counts as 0), [score] and
    [catHitsThisLevel] are 0, [isFirstGame] is set, [isDying], [isStunned]
    and [stunEndTime] are cleared, [level] is the [lastPlayedLevel] of
    before the retry, [gameKey] grows by exactly 1 and the screen is
    [Game]. *)
Theorem handlePlayAgain_full_reset (w : World) (sn : SnakeConfig) :
  selectedSnake w = Some sn ->
  lives (game w) = 0 ->
  currentSnake (ui (exec handlePlayAgain w)) = Some sn /\
  lives (game (exec handlePlayAgain w)) =
    3 + match extraLives sn with Some n => n | None => 0 end /\
  score (game (exec handlePlayAgain w)) = 0 /\
  catHitsThisLevel (game (exec handlePlayAgain w)) = 0 /\
  isFirstGame (game (exec handlePlayAgain w)) = true /\
  isDying (game (exec handlePlayAgain w)) = false /\
  isStunned (game (exec handlePlayAgain w)) = false /\
  stunEndTime (game (exec handlePlayAgain w)) = 0 /\
  level (game (exec handlePlayAgain w)) = lastPlayedLevel (game w) /\
  gameKey (ui (exec handlePlayAgain w)) = gameKey (ui w) + 1 /\
  screen (ui (exec handlePlayAgain w)) = Game.
Proof.
  intros Hsel Hlives.
  rewrite (handlePlayAgain_selected w sn Hsel).
  rewrite Hlives. cbn. rewrite orZero_default.
  repeat split; reflexivity.
Qed.

Lemma handlePlayAgain_full_reset_witness :
  (selectedSnake fullResetWorld = Some (neonSnake (Some 2)) /\
   lives (game fullResetWorld) = 0) /\
  lives (game (exec handlePlayAgain fullResetWorld)) = 5 /\
  score (game (exec handlePlayAgain fullResetWorld)) = 0 /\
  level (game (exec handlePlayAgain fullResetWorld)) = 4 /\
  gameKey (ui (exec handlePlayAgain fullResetWorld)) = 8 /\
  screen (ui (exec handlePlayAgain fullResetWorld)) = Game.
Proof.
  split; [split; reflexivity|].
  destruct (handlePlayAgain_full_reset fullResetWorld (neonSnake (Some 2))
              eq_refl eq_refl)
    as (_ & Hl & Hs & _ & _ & _ & _ & _ & Hlv & Hk & Hsc).
  repeat split; assumption.
Defined.

(** C2.  A retry with a snake selected and lives left is a partial retry:
    [score], [level], [catHitsThisLevel], [isFirstGame] and [gameKey] keep
    their values; the session changes only in [isPlaying] (true),
    [isPaused] and [isGameOver] (false), [isDying] and [isStunned] (false)
    and [stunEndTime] (0); the component state changes only in the screen,
    which is [Game], and in the active snake, which is the selected one. *)
Theorem handlePlayAgain_partial_retry (w : World) (sn : SnakeConfig) :
  selectedSnake w = Some sn ->
  0 < lives (game w) ->
  score (game (exec handlePlayAgain w)) = score (game w) /\
  level (game (exec handlePlayAgain w)) = level (game w) /\
  catHitsThisLevel (game (exec handlePlayAgain w)) =
    catHitsThisLevel (game w) /\
  isFirstGame (game (exec handlePlayAgain w)) = isFirstGame (game w) /\
  gameKey (ui (exec handlePlayAgain w)) = gameKey (ui w) /\
  game (exec handlePlayAgain w) =
    {| isPlaying := true; isPaused := false; isGameOver := false;
       score := score (game w); lives := lives (game w);
       level := level (game w);
       lastPlayedLevel := lastPlayedLevel (game w);
       catHitsThisLevel := catHitsThisLevel (game w);
       isFirstGame := isFirstGame (game w);
       isDying := false; isStunned := false; stunEndTime := 0 |} /\
  ui (exec handlePlayAgain w) =
    {| screen := Game; showShop := showShop (ui w);
       showSettings := showSettings (ui w);
       showPauseMenu := showPauseMenu (ui w);
       currentSnake := Some sn; currentMode := currentMode (ui w);
       gameKey := gameKey (ui w);
       justUnlockedLevel := justUnlockedLevel (ui w) |} /\
  directionCallbackRef (exec handlePlayAgain w) = directionCallbackRef w /\
  selectedSnake (exec handlePlayAgain w) = selectedSnake w /\
  user (exec handlePlayAgain w) = user w.
Proof.
  intros Hsel Hlives.
  rewrite (handlePlayAgain_selected w sn Hsel).
  assert (Hne : (lives (game w) =? 0) = false) by (apply Z.eqb_neq; lia).
  rewrite Hne. cbn. repeat split; reflexivity.
Qed.

Lemma handlePlayAgain_partial_retry_witness :
  (selectedSnake partialRetryWorld = Some (neonSnake (Some 0)) /\
   0 < lives (game partialRetryWorld)) /\
  lives (game (exec handlePlayAgain partialRetryWorld)) = 1 /\
  score (game (exec handlePlayAgain partialRetryWorld)) = 1500 /\
  level (game (exec handlePlayAgain partialRetryWorld)) = 6 /\
  gameKey (ui (exec handlePlayAgain partialRetryWorld)) = 7 /\
  screen (ui (exec handlePlayAgain partialRetryWorld)) = Game.
Proof.
  split; [split; [reflexivity | reflexivity]|].
  destruct (handlePlayAgain_partial_retry partialRetryWorld
              (neonSnake (Some 0)) eq_refl eq_refl)
    as (Hs & Hlv & _ & _ & Hk & Hg & Hu & _).
  rewrite Hg, Hu. cbn. repeat split; reflexivity.
Defined.

(** C10.  The object literal of the retry has no [lastPlayedLevel] entry, so
    no retry, full, partial or refused, changes [lastPlayedLevel]; full
    resets from sessions with the same [lastPlayedLevel] therefore restart
    at the same level. *)
Theorem handlePlayAgain_keeps_lastPlayedLevel :
  (forall store isFullReset totalLives,
     p_lastPlayedLevel (retryPatch store isFullReset totalLives) = None) /\
  (forall w,
     lastPlayedLevel (game (exec handlePlayAgain w)) =
     lastPlayedLevel (game w)) /\
  (forall w1 w2 sn1 sn2,
     selectedSnake w1 = Some sn1 -> selectedSnake w2 = Some sn2 ->
     lives (game w1) = 0 -> lives (game w2) = 0 ->
     lastPlayedLevel (game w1) = lastPlayedLevel (game w2) ->
     level (game (exec handlePlayAgain w1)) =
     level (game (exec handlePlayAgain w2))).
Proof.
  split; [reflexivity|]. split.
  - intros w. destruct (selectedSnake w) as [sn|] eqn:Hsel.
    + rewrite (handlePlayAgain_selected w sn Hsel). reflexivity.
    + rewrite (handlePlayAgain_unselected w Hsel). reflexivity.
  - intros w1 w2 sn1 sn2 H1 H2 L1 L2 Heq.
    rewrite (handlePlayAgain_selected w1 sn1 H1).
    rewrite (handlePlayAgain_selected w2 sn2 H2).
    rewrite L1, L2. cbn. exact Heq.
Qed.

Lemma handlePlayAgain_keeps_lastPlayedLevel_witness :
  lastPlayedLevel
    (game (exec handlePlayAgain
       (worldAt GameOver None (Some (neonSnake (Some 2))) (session 0 10))))
  = 4 /\
  level (game (exec handlePlayAgain
       (worldAt GameOver None (Some (neonSnake (Some 2))) (session 0 10))))
  = level (game (exec handlePlayAgain
       (worldAt Game None (Some (neonSnake None)) (session 0 99)))).
Proof.
  destruct handlePlayAgain_keeps_lastPlayedLevel as (_ & Hkeep & Hsame).
  split.
  - rewrite Hkeep. reflexivity.
  - apply (Hsame _ _ (neonSnake (Some 2)) (neonSnake None));
      reflexivity.
Defined.

(** ** Starting without a selection *)

(** [onSelectLevel] runs to the end whatever the selection store returns. *)
Lemma onSelectLevel_run sg (lvl : Z) (w : World) :
  exec (onSelectLevel sg lvl) w =
    let g' := sg (selectedSnake w) Adventure (Some lvl) (game w) in
    {| ui := {| screen := Game;
                showShop := showShop (ui w);
                showSettings := showSettings (ui w);
                showPauseMenu := showPauseMenu (ui w);
                currentSnake := selectedSnake w;
                currentMode := Adventure;
                gameKey := gameKey (ui w);
                justUnlockedLevel := None |};
       directionCallbackRef := directionCallbackRef w;
       game := g';
       selectedSnake := selectedSnake w;
       user := user w;
       calls := calls w ++
         [CallConsoleLog "[DEBUG App] Starting adventure at level:" lvl;
          CallStartGame (selectedSnake w) Adventure (Some lvl);
          CallConsoleLog "[DEBUG App] After startGame, gameStore level:"
                         (level g')] |}.
Proof.
  destruct w as [u r g sel us cs].
  unfold exec, onSelectLevel, bind. cbn.
  rewrite <- !app_assoc. reflexivity.
Qed.

(** C3.  Selecting an adventure level while no snake is selected is not
    refused: from the adventure map with an empty selection the handler
    calls [startGame] with no snake, switches the mode to adventure, drops
    the pending unlock animation and shows the game screen with no active
    snake.  (The retry handler does return at once in that situation, see
    [handlePlayAgain_unselected].) *)
Theorem onSelectLevel_without_selection :
  forall sg (lvl : Z),
    selectedSnake mapWithoutSelection = None /\
    screen (ui (exec (onSelectLevel sg lvl) mapWithoutSelection)) = Game /\
    currentSnake (ui (exec (onSelectLevel sg lvl) mapWithoutSelection))
      = None /\
    justUnlockedLevel (ui (exec (onSelectLevel sg lvl) mapWithoutSelection))
      = None /\
    game (exec (onSelectLevel sg lvl) mapWithoutSelection)
      = sg None Adventure (Some lvl) (game mapWithoutSelection) /\
    In (CallStartGame None Adventure (Some lvl))
       (issued (onSelectLevel sg lvl) mapWithoutSelection) /\
    exec (onSelectLevel sg lvl) mapWithoutSelection <> mapWithoutSelection.
Proof.
  intros sg lvl. rewrite onSelectLevel_run.
  repeat split; try reflexivity.
  - erewrite issued_app by (rewrite onSelectLevel_run; reflexivity).
    cbn. auto.
  - discriminate.
Qed.

(** ** The snake invariant *)

Lemma gameScreenShown_snake (w : World) :
  gameScreenShown w = true -> currentSnake (ui w) <> None.
Proof.
  unfold gameScreenShown. intros H.
  apply andb_true_iff in H. destruct H as [_ H].
  destruct (currentSnake (ui w)); [discriminate | discriminate H].
Qed.

Lemma onScreen_true (s : Screen) (w : World) :
  onScreen s w = true -> screen (ui w) = s.
Proof.
  unfold onScreen. destruct (screen (ui w)), s; intros H;
    first [reflexivity | discriminate H].
Qed.

(** Every step keeps the snake invariant, provided a snake is selected
    whenever a level is picked on the adventure map. *)
Lemma step_snakeInvariant sg rs un (w w' : World) :
  step sg rs un w w' ->
  (screen (ui w) = AdventureMap -> selectedSnake w <> None) ->
  snakeInvariant w -> snakeInvariant w'.
Proof.
  intros Hstep Hsel Hinv. destruct Hstep as [e w Hen | w g sel u].
  - unfold snakeInvariant in *. unfold enabled in Hen.
    destruct e; cbn [source mounted handler] in Hen |- *;
      try (destruct w as [[sc ? ? ? cur ? ? ?] ? ? ? ? ?]; cbn in *;
           first [ exact Hinv
                 | intros _; discriminate
                 | intros [H|H]; discriminate H ]).
    + (* onSelectLevel *)
      rewrite onSelectLevel_run. cbn. intros _.
      apply Hsel. apply (onScreen_true AdventureMap w Hen).
    + (* handleGameOver *)
      apply gameScreenShown_snake in Hen.
      destruct w as [[sc ? ? ? cur ? ? ?] ? ? ? ? ?]; cbn in *.
      intros _. exact Hen.
    + (* handleDpadPress *)
      unfold exec, handleDpadPress.
      destruct w as [[sc ? ? ? cur ? ? ?] [cb|] ? ? ? ?]; cbn in *;
        exact Hinv.
    + (* handlePlayAgain *)
      destruct (selectedSnake w) as [sn|] eqn:Hs.
      * rewrite (handlePlayAgain_selected w sn Hs). cbn.
        intros _; discriminate.
      * rewrite (handlePlayAgain_unselected w Hs). exact Hinv.
  - exact Hinv.
Qed.

(** C4.  The snake invariant does not hold in every reachable state:
    starting the application with an empty selection, opening the adventure
    map and picking a level leads to the game screen with no active
    snake. *)
Theorem snakeInvariant_broken_by_onSelectLevel :
  forall sg rs un,
  exists w : World,
    reachable sg rs un w /\
    screen (ui w) = Game /\ currentSnake (ui w) = None /\
    ~ snakeInvariant w.
Proof.
  intros sg rs un.
  set (w0 := initialWorld defaultSession None sampleUser).
  set (w1 := exec (handler sg rs un EvOpenAdventureMap) w0).
  exists (exec (handler sg rs un (EvSelectLevel 1)) w1).
  split; [|split; [reflexivity | split; [reflexivity|]]].
  - apply reachable_step with (w := w1).
    + apply reachable_step with (w := w0).
      * apply reachable_init.
      * apply step_event. reflexivity.
    + apply step_event. reflexivity.
  - intros Hinv. apply Hinv; [left|]; reflexivity.
Qed.

(** ** Entering the menu *)

Lemma handleMainMenu_run rs (w : World) :
  exec (handleMainMenu rs) w =
    {| ui := {| screen := Menu;
                showShop := showShop (ui w);
                showSettings := showSettings (ui w);
                showPauseMenu := false;
                currentSnake := currentSnake (ui w);
                currentMode := currentMode (ui w);
                gameKey := gameKey (ui w);
                justUnlockedLevel := justUnlockedLevel (ui w) |};
       directionCallbackRef := directionCallbackRef w;
       game := rs (game w);
       selectedSnake := selectedSnake w;
       user := user w;
       calls := calls w ++ [CallReset] |}.
Proof. destruct w as [u r g sel us cs]. reflexivity. Qed.

Lemma onBack_run (w : World) :
  exec onBack w =
    {| ui := {| screen := Menu;
                showShop := showShop (ui w);
                showSettings := showSettings (ui w);
                showPauseMenu := showPauseMenu (ui w);
                currentSnake := currentSnake (ui w);
                currentMode := currentMode (ui w);
                gameKey := gameKey (ui w);
                justUnlockedLevel := justUnlockedLevel (ui w) |};
       directionCallbackRef := directionCallbackRef w;
       game := game w;
       selectedSnake := selectedSnake w;
       user := user w;
       calls := calls w |}.
Proof. destruct w as [u r g sel us cs]. reflexivity. Qed.

Lemma issued_nil {A : Type} (m : Handler A) (w : World) :
  calls (exec m w) = calls w -> issued m w = [].
Proof.
  intros H. apply issued_app. rewrite H, app_nil_r. reflexivity.
Qed.

(** C5, as stated, fails for the back button of the adventure map: it
    enters the menu, calls no store operation and leaves the session as it
    was. *)
Lemma onBack_does_not_reset :
  enabled EvBack mapAfterGame = true /\
  screen (ui mapAfterGame) <> Menu /\
  screen (ui (exec onBack mapAfterGame)) = Menu /\
  issued onBack mapAfterGame = [] /\
  game (exec onBack mapAfterGame) = session 1 1500 /\
  game (exec onBack mapAfterGame) <> sample_reset (game mapAfterGame) /\
  ~ resetsSessionOnMenuEntry sample_startGame sample_reset
      sample_unlockNextLevel EvBack.
Proof.
  repeat split; try reflexivity; try discriminate.
  intros Hclaim.
  destruct (Hclaim mapAfterGame) as [Hg _];
    [reflexivity | discriminate | reflexivity | discriminate Hg].
Qed.

(** C5, amended.  Whenever a handler takes the component from another
    screen to the menu, it is either the return-to-menu of the game-over
    dialog or of the pause menu, and then the session store's [reset] is
    called exactly once, the session is what [reset] makes of it and the
    pause menu is hidden; or it is the back button of the adventure map,
    and then no store operation is called and the session is untouched. *)
Theorem menu_entry_session sg rs un (e : Event) (w : World) :
  enabled e w = true ->
  screen (ui w) <> Menu ->
  screen (ui (exec (handler sg rs un e) w)) = Menu ->
  ((e = EvMainMenuFromGameOver \/ e = EvMainMenuFromPause) /\
   game (exec (handler sg rs un e) w) = rs (game w) /\
   issued (handler sg rs un e) w = [CallReset] /\
   showPauseMenu (ui (exec (handler sg rs un e) w)) = false)
  \/
  (e = EvBack /\
   game (exec (handler sg rs un e) w) = game w /\
   issued (handler sg rs un e) w = []).
Proof.
  intros Hen Hfrom Hto.
  destruct e; cbn [handler] in *;
    try (exfalso;
         destruct w as [[sc ? ? ? cur ? ? ?] ? ? ? ? ?]; cbn in *;
         first [ discriminate Hto | exact (Hfrom Hto) ]).
  - (* onBack *)
    right. rewrite onBack_run. split; [reflexivity|]. split; [reflexivity|].
    apply issued_nil. rewrite onBack_run. reflexivity.
  - (* handleDpadPress *)
    exfalso. unfold exec, handleDpadPress in Hto.
    destruct w as [[sc ? ? ? cur ? ? ?] [cb|] ? ? ? ?]; cbn in *;
      exact (Hfrom Hto).
  - (* handlePlayAgain *)
    exfalso. destruct (selectedSnake w) as [sn|] eqn:Hs.
    + rewrite (handlePlayAgain_selected w sn Hs) in Hto. discriminate Hto.
    + rewrite (handlePlayAgain_unselected w Hs) in Hto. exact (Hfrom Hto).
  - (* handleMainMenu, game-over dialog *)
    left. rewrite handleMainMenu_run. split; [left; reflexivity|].
    split; [reflexivity|]. split; [|reflexivity].
    apply issued_app. rewrite handleMainMenu_run. reflexivity.
  - (* handleMainMenu, pause menu *)
    left. rewrite handleMainMenu_run. split; [right; reflexivity|].
    split; [reflexivity|]. split; [|reflexivity].
    apply issued_app. rewrite handleMainMenu_run. reflexivity.
Qed.

Lemma menu_entry_session_witness :
  enabled EvMainMenuFromGameOver
    (worldAt GameOver (Some (neonSnake None)) (Some (neonSnake None))
             (session 0 1500)) = true /\
  game (exec (handleMainMenu sample_reset)
    (worldAt GameOver (Some (neonSnake None)) (Some (neonSnake None))
             (session 0 1500))) = defaultSession.
Proof.
  split; [reflexivity|].
  destruct (menu_entry_session sample_startGame sample_reset
              sample_unlockNextLevel EvMainMenuFromGameOver
              (worldAt GameOver (Some (neonSnake None))
                       (Some (neonSnake None)) (session 0 1500)))
    as [(_ & Hg & _) | (He & _)];
    [reflexivity | discriminate | reflexivity | exact Hg | discriminate He].
Defined.

(** ** Pause and resume *)

Lemma handlePauseGame_run (w : World) :
  exec handlePauseGame w =
    {| ui := {| screen := screen (ui w);
                showShop := showShop (ui w);
                showSettings := showSettings (ui w);
                showPauseMenu := true;
                currentSnake := currentSnake (ui w);
                currentMode := currentMode (ui w);
                gameKey := gameKey (ui w);
                justUnlockedLevel := justUnlockedLevel (ui w) |};
       directionCallbackRef := directionCallbackRef w;
       game := store_pauseGame (game w);
       selectedSnake := selectedSnake w;
       user := user w;
       calls := calls w ++ [CallPauseGame] |}.
Proof. destruct w as [u r g sel us cs]. reflexivity. Qed.

Lemma handleResumeGame_run (w : World) :
  exec handleResumeGame w =
    {| ui := {| screen := screen (ui w);
                showShop := showShop (ui w);
                showSettings := showSettings (ui w);
                showPauseMenu := false;
                currentSnake := currentSnake (ui w);
                currentMode := currentMode (ui w);
                gameKey := gameKey (ui w);
                justUnlockedLevel := justUnlockedLevel (ui w) |};
       directionCallbackRef := directionCallbackRef w;
       game := store_resumeGame (game w);
       selectedSnake := selectedSnake w;
       user := user w;
       calls := calls w ++ [CallResumeGame] |}.
Proof. destruct w as [u r g sel us cs]. reflexivity. Qed.

(** Where the HUD shows its pause button and the pause invariant holds,
    the pause menu is closed and the session runs, so pausing and resuming
    does restore both values. *)
Lemma pause_resume_from_button (w : World) :
  showPauseButton w = true -> pauseInvariant w -> pauseResumeRestores w.
Proof.
  unfold showPauseButton, pauseInvariant, pauseResumeRestores.
  intros Hbtn Hinv.
  apply andb_true_iff in Hbtn. destruct Hbtn as [Hbtn _].
  apply andb_true_iff in Hbtn. destruct Hbtn as [_ Hrun].
  apply negb_true_iff in Hrun.
  rewrite handleResumeGame_run. cbn. split; [congruence|].
  destruct (showPauseMenu (ui w)); [|reflexivity].
  rewrite Hinv in Hrun by reflexivity. discriminate Hrun.
Qed.

(** C6, as stated, fails when the pause menu is already open: pausing and
    resuming leaves it closed and the session running. *)
Lemma pause_resume_not_restoring :
  showPauseMenu (ui pausedWorld) = true /\
  isPaused (game pausedWorld) = true /\
  showPauseMenu (ui (exec handleResumeGame (exec handlePauseGame pausedWorld)))
    = false /\
  isPaused (game (exec handleResumeGame (exec handlePauseGame pausedWorld)))
    = false /\
  ~ pauseResumeRestores pausedWorld /\
  ~ (forall w : World, pauseResumeRestores w).
Proof.
  repeat split; try reflexivity.
  - intros [H _]. discriminate H.
  - intros H. destruct (H pausedWorld) as [H1 _]. discriminate H1.
Qed.

(** C6, amended.  Pausing sets both [isPaused] and [showPauseMenu];
    resuming clears both; pausing and then resuming leaves both cleared,
    which restores their values of before the pause when both were false
    then, and only then; the pause invariant holds after a pause and after
    a resume. *)
Theorem pause_resume_pair :
  (forall w,
     isPaused (game (exec handlePauseGame w)) = true /\
     showPauseMenu (ui (exec handlePauseGame w)) = true) /\
  (forall w,
     isPaused (game (exec handleResumeGame w)) = false /\
     showPauseMenu (ui (exec handleResumeGame w)) = false) /\
  (forall w,
     isPaused (game (exec handleResumeGame (exec handlePauseGame w)))
       = false /\
     showPauseMenu (ui (exec handleResumeGame (exec handlePauseGame w)))
       = false) /\
  (forall w,
     pauseResumeRestores w <->
     isPaused (game w) = false /\ showPauseMenu (ui w) = false) /\
  (forall w,
     pauseInvariant (exec handlePauseGame w) /\
     pauseInvariant (exec handleResumeGame w)).
Proof.
  repeat apply conj.
  - intros w. rewrite handlePauseGame_run. split; reflexivity.
  - intros w. rewrite handleResumeGame_run. split; reflexivity.
  - intros w. rewrite handleResumeGame_run. split; reflexivity.
  - intros w. unfold pauseResumeRestores.
    rewrite handleResumeGame_run. cbn.
    split; intros [H1 H2]; split; congruence.
  - intros w. unfold pauseInvariant.
    rewrite handlePauseGame_run, handleResumeGame_run. cbn.
    split; [reflexivity | discriminate].
Qed.

Lemma pause_resume_pair_witness :
  (isPaused (game runningWorld) = false /\
   showPauseMenu (ui runningWorld) = false) /\
  pauseResumeRestores runningWorld.
Proof.
  split; [split; reflexivity|].
  destruct pause_resume_pair as (_ & _ & _ & Hiff & _).
  apply (proj2 (Hiff runningWorld)). split; reflexivity.
Defined.

(** ** Adventure level complete *)

(** C7.  When the engine reports a completed adventure level, the component
    state, the screen in particular, does not change at all; the progress
    store's [unlockNextLevel] is called exactly once; beyond that the
    handler only writes one line to the console, and the session, the
    selection and the direction handler are untouched. *)
Theorem handleAdventureLevelComplete_frame :
  forall un (completedLevel : Z) (w : World),
    screen (ui (exec (handleAdventureLevelComplete un completedLevel) w))
      = screen (ui w) /\
    ui (exec (handleAdventureLevelComplete un completedLevel) w) = ui w /\
    count isCallUnlockNextLevel
      (issued (handleAdventureLevelComplete un completedLevel) w) = 1%nat /\
    issued (handleAdventureLevelComplete un completedLevel) w =
      [CallConsoleLog "[Adventure] Level completed:" completedLevel;
       CallUnlockNextLevel] /\
    user (exec (handleAdventureLevelComplete un completedLevel) w)
      = un (user w) /\
    game (exec (handleAdventureLevelComplete un completedLevel) w)
      = game w /\
    selectedSnake (exec (handleAdventureLevelComplete un completedLevel) w)
      = selectedSnake w /\
    directionCallbackRef
      (exec (handleAdventureLevelComplete un completedLevel) w)
      = directionCallbackRef w.
Proof.
  intros un lvl w.
  assert (Hcalls :
    calls (exec (handleAdventureLevelComplete un lvl) w) =
    calls w ++ [CallConsoleLog "[Adventure] Level completed:" lvl;
                CallUnlockNextLevel]).
  { destruct w as [u r g sel us cs]. cbn. rewrite <- app_assoc. reflexivity. }
  rewrite (issued_app _ _ _ Hcalls).
  destruct w as [u r g sel us cs]. repeat split; reflexivity.
Qed.

(** ** Overlays *)

(** C8.  Opening the shop or the settings (from the main menu, or the
    settings from the pause menu) sets that overlay's flag and nothing
    else: the screen, the other overlay flags, every other field of the
    component state and the stores keep their values.  Closing an overlay
    sets its flag to false and nothing else. *)
Theorem overlays_frame :
  forall w : World,
    (ui (exec onOpenShop w) = withShowShop true (ui w) /\
     storesKept w (exec onOpenShop w)) /\
    (ui (exec onOpenSettings w) = withShowSettings true (ui w) /\
     storesKept w (exec onOpenSettings w)) /\
    (ui (exec handleOpenSettingsFromPause w)
       = withShowSettings true (ui w) /\
     storesKept w (exec handleOpenSettingsFromPause w)) /\
    (ui (exec onCloseShop w) = withShowShop false (ui w) /\
     storesKept w (exec onCloseShop w)) /\
    (ui (exec onCloseSettings w) = withShowSettings false (ui w) /\
     storesKept w (exec onCloseSettings w)).
Proof.
  intros [u r g sel us cs]. unfold storesKept.
  repeat split; reflexivity.
Qed.

(** ** D-Pad routing *)

(** C9.  A D-Pad press calls the registered direction handler, once, with
    the pressed direction, and changes nothing else; with no handler
    registered it changes nothing at all.  The handler always returns. *)
Theorem handleDpadPress_routes :
  forall (direction : Direction) (w : World),
    (forall callback,
       directionCallbackRef w = Some callback ->
       issued (handleDpadPress direction) w
         = [CallDirection callback direction] /\
       ui (exec (handleDpadPress direction) w) = ui w /\
       directionCallbackRef (exec (handleDpadPress direction) w)
         = Some callback /\
       game (exec (handleDpadPress direction) w) = game w /\
       selectedSnake (exec (handleDpadPress direction) w)
         = selectedSnake w /\
       user (exec (handleDpadPress direction) w) = user w) /\
    (directionCallbackRef w = None ->
       handleDpadPress direction w = (tt, w) /\
       exec (handleDpadPress direction) w = w /\
       issued (handleDpadPress direction) w = []).
Proof.
  intros d [u r g sel us cs]. split.
  - intros cb Hr. cbn in Hr. subst r.
    split; [|repeat split; reflexivity].
    apply issued_app. reflexivity.
  - intros Hr. cbn in Hr. subst r.
    split; [reflexivity|]. split; [reflexivity|].
    apply issued_nil. reflexivity.
Qed.

Lemma handleDpadPress_routes_witness :
  (directionCallbackRef runningWorld = Some 1%nat /\
   issued (handleDpadPress DirLeft) runningWorld
     = [CallDirection 1%nat DirLeft]) /\
  (directionCallbackRef (initialWorld defaultSession None sampleUser) = None /\
   exec (handleDpadPress DirLeft)
        (initialWorld defaultSession None sampleUser)
     = initialWorld defaultSession None sampleUser).
Proof.
  split; (split; [reflexivity|]).
  - destruct (handleDpadPress_routes DirLeft runningWorld) as [Hsome _].
    destruct (Hsome 1%nat eq_refl) as [Hi _]. exact Hi.
  - destruct (handleDpadPress_routes DirLeft
                (initialWorld defaultSession None sampleUser)) as [_ Hnone].
    destruct (Hnone eq_refl) as (_ & He & _). exact He.
Defined.

(** ** The render tree *)

Ltac crush_world w :=
  destruct w as [[sc sh se pm cur md k ju] r g sel us cs];
  destruct g as [pl pa go ? ? ? ? ? ? ? ? ?];
  destruct us as [dp ?].

(** X1.  The three screens exclude one another: at most one of the main
    menu, the adventure map and the game block is rendered, and none of
    them is rendered exactly when the screen is the game or the game-over
    screen and there is no active snake. *)
Theorem screens_exclusive (w : World) :
  mounted CMainMenu w && mounted CAdventureMap w = false /\
  mounted CMainMenu w && mounted CGameCanvas w = false /\
  mounted CAdventureMap w && mounted CGameCanvas w = false /\
  mounted CMainMenu w || mounted CAdventureMap w || mounted CGameCanvas w
    = negb ((onScreen Game w || onScreen GameOver w)
            && negb (isSome (currentSnake (ui w)))).
Proof.
  crush_world w. destruct sc, cur; repeat split; reflexivity.
Qed.

(** X2.  Inside the game block: the HUD and the engine host are rendered
    together; the D-Pad is rendered only with the engine host, only while
    the pause button is shown and only if the D-Pad preference is on; the
    game-over dialog is rendered only with the engine host and never while
    the pause button is shown; so the D-Pad and the game-over dialog are
    never rendered together. *)
Theorem game_block_children (w : World) :
  mounted CGameHUD w = mounted CGameCanvas w /\
  mounted CDPad w =
    mounted CGameCanvas w && showPauseButton w && dpadEnabled (user w) /\
  mounted CGameOverModal w = mounted CGameCanvas w && onScreen GameOver w /\
  mounted CGameOverModal w && showPauseButton w = false /\
  mounted CDPad w && mounted CGameOverModal w = false.
Proof.
  crush_world w.
  destruct sc, cur, dp, pl, pa; repeat split; reflexivity.
Qed.

(** X3.  No callback of any rendered child can fire exactly when nothing is
    rendered, that is on the game or game-over screen without an active
    snake and with every overlay closed: from there the interface offers
    no way out. *)
Theorem stuck_iff_blank (w : World) :
  (forall e : Event, enabled e w = false) <-> blank w = true.
Proof.
  split.
  - intros H.
    pose proof (H EvOpenShop) as Hmenu.
    pose proof (H EvBack) as Hmap.
    pose proof (H EvPause) as Hhud.
    pose proof (H EvResume) as Hpause.
    pose proof (H EvCloseShop) as Hshop.
    pose proof (H EvCloseSettings) as Hset.
    clear H. unfold enabled in *. crush_world w. cbn in *.
    subst. destruct sc, cur; first [reflexivity | discriminate].
  - intros Hb e. unfold blank in Hb.
    repeat (apply andb_true_iff in Hb; destruct Hb as [Hb ?]).
    unfold enabled. crush_world w. cbn in *.
    destruct pm, sh, se; try discriminate.
    destruct sc, cur, e; try discriminate; reflexivity.
Qed.

Lemma stuck_iff_blank_witness :
  blank (exec (onSelectLevel sample_startGame 1) mapWithoutSelection) = true /\
  enabled EvPause
    (exec (onSelectLevel sample_startGame 1) mapWithoutSelection) = false.
Proof.
  split; [reflexivity|].
  apply (proj2 (stuck_iff_blank
           (exec (onSelectLevel sample_startGame 1) mapWithoutSelection))).
  reflexivity.
Defined.

(** ** The engine host across events *)

Lemma gameCanvas_ui (w w' : World) :
  ui w' = ui w -> gameCanvas w' = gameCanvas w.
Proof.
  intros H. unfold gameCanvas, onScreen. rewrite H. reflexivity.
Qed.

(** X4.  Only starting a game, selecting a level, retrying and returning to
    the menu can mount, unmount or change the engine host: after any other
    callback of a rendered child, the host is rendered as before, with the
    same key, snake and mode.  This covers the game-over notification,
    pause and resume, the overlays, the D-Pad, and the engine's other
    callbacks. *)
Theorem canvas_stable sg rs un (e : Event) (w : World) :
  enabled e w = true ->
  changesCanvas e = false ->
  gameCanvas (exec (handler sg rs un e) w) = gameCanvas w.
Proof.
  intros Hen Hch. unfold enabled in Hen.
  destruct e; try discriminate Hch; cbn [source mounted handler] in *;
    try (destruct w as [[sc ? ? ? cur ? ? ?] ? ? ? ? ?]; reflexivity).
  - (* onOpenAdventureMap *)
    crush_world w. cbn in *. destruct sc; try discriminate Hen. reflexivity.
  - (* onBack *)
    crush_world w. cbn in *. destruct sc; try discriminate Hen. reflexivity.
  - (* handleGameOver *)
    crush_world w. cbn in *.
    destruct sc, cur; try discriminate Hen; reflexivity.
  - (* handleDpadPress *)
    apply gameCanvas_ui. unfold exec, handleDpadPress.
    destruct (directionCallbackRef w);
      destruct w as [u ? ? ? ? ?]; reflexivity.
Qed.

Lemma canvas_stable_witness :
  enabled EvGameOver runningWorld = true /\
  gameCanvas (exec handleGameOver runningWorld)
    = Some (mkCanvasProps 0 (neonSnake None) Classic).
Proof.
  split; [reflexivity|].
  exact (canvas_stable sample_startGame sample_reset sample_unlockNextLevel
           EvGameOver runningWorld eq_refl eq_refl).
Defined.

(** X5.  When the engine reports the end of the game, the component only
    switches the screen: the engine host stays mounted, the game-over
    dialog appears over it, the D-Pad and the pause button go, and the
    session store is neither called nor changed. *)
Theorem handleGameOver_overlay (w : World) :
  mounted CGameCanvas w = true ->
  keepsCanvas w (exec handleGameOver w) = true /\
  mounted CGameOverModal (exec handleGameOver w) = true /\
  mounted CDPad (exec handleGameOver w) = false /\
  showPauseButton (exec handleGameOver w) = false /\
  game (exec handleGameOver w) = game w /\
  issued handleGameOver w = [].
Proof.
  intros Hm. split; [|split; [|split; [|split; [|split]]]].
  - crush_world w. cbn in *. unfold keepsCanvas, gameCanvas. cbn.
    destruct sc, cur; try discriminate Hm; cbn; apply Z.eqb_refl.
  - crush_world w. cbn in *. destruct sc, cur; try discriminate Hm;
      reflexivity.
  - crush_world w. cbn in *.
    destruct sc, cur, dp, pl, pa; try discriminate Hm; reflexivity.
  - crush_world w. cbn. destruct pl, pa; reflexivity.
  - destruct w as [u ? ? ? ? ?]. reflexivity.
  - unfold issued. destruct w as [u ? ? ? ? cs]. cbn.
    apply skipn_all.
Qed.

Lemma handleGameOver_overlay_witness :
  mounted CGameCanvas runningWorld = true /\
  mounted CDPad runningWorld = true /\
  mounted CDPad (exec handleGameOver runningWorld) = false /\
  mounted CGameOverModal (exec handleGameOver runningWorld) = true.
Proof.
  split; [reflexivity|]. split; [reflexivity|].
  destruct (handleGameOver_overlay runningWorld eq_refl)
    as (_ & Hmodal & Hpad & _).
  split; assumption.
Defined.

(** X6.  A retry from the game-over dialog with a snake selected keeps the
    mounted engine exactly when the session's lives are not 0 (a negative
    count included); with lives 0 the key changes and the engine is mounted
    afresh.  Either way the engine host is rendered afterwards, with the
    selected snake and the mode of before. *)
Theorem handlePlayAgain_remount (w : World) (sn : SnakeConfig) :
  mounted CGameOverModal w = true ->
  selectedSnake w = Some sn ->
  (keepsCanvas w (exec handlePlayAgain w) = true <-> lives (game w) <> 0) /\
  gameCanvas (exec handlePlayAgain w) =
    Some (mkCanvasProps
            (if lives (game w) =? 0 then gameKey (ui w) + 1
             else gameKey (ui w))
            sn (currentMode (ui w))).
Proof.
  intros Hm Hsel. rewrite (handlePlayAgain_selected w sn Hsel).
  destruct w as [[sc sh se pm cur md k ju] r
                 [pl pa go pts lv lev lpl ch fg dy st ste] sel [dp ul] cs].
  cbn in *.
  destruct sc, cur; try discriminate Hm.
  unfold keepsCanvas, gameCanvas. cbn.
  destruct (Z.eqb_spec lv 0) as [Hz|Hz]; cbn; split; try reflexivity.
  - split; [intros Hk | intros Hn; contradiction].
    apply Z.eqb_eq in Hk. lia.
  - split; [intros _; exact Hz | intros _; apply Z.eqb_refl].
Qed.

Lemma handlePlayAgain_remount_witness :
  (mounted CGameOverModal (gameOverWorld (-1)) = true /\
   selectedSnake (gameOverWorld (-1)) = Some (neonSnake (Some 1))) /\
  keepsCanvas (gameOverWorld (-1)) (exec handlePlayAgain (gameOverWorld (-1)))
    = true /\
  keepsCanvas (gameOverWorld 0) (exec handlePlayAgain (gameOverWorld 0))
    = false.
Proof.
  split; [split; reflexivity|]. split.
  - apply (proj1 (handlePlayAgain_remount (gameOverWorld (-1))
                    (neonSnake (Some 1)) eq_refl eq_refl)).
    cbn. lia.
  - destruct (keepsCanvas (gameOverWorld 0)
                (exec handlePlayAgain (gameOverWorld 0))) eqn:Hk;
      [|reflexivity].
    exfalso.
    apply (proj1 (proj1 (handlePlayAgain_remount (gameOverWorld 0)
                    (neonSnake (Some 1)) eq_refl eq_refl)) Hk).
    reflexivity.
Defined.

(** X7.  After a retry with a snake selected the game is shown as running:
    the pause button is shown, the game-over dialog is gone and the D-Pad
    is rendered exactly when the D-Pad preference is on.  The retry does
    not close the pause menu: the flag keeps its value, so the pause
    invariant holds afterwards exactly when the pause menu was closed. *)
Theorem handlePlayAgain_resumes_play (w : World) (sn : SnakeConfig) :
  selectedSnake w = Some sn ->
  showPauseButton (exec handlePlayAgain w) = true /\
  mounted CGameOverModal (exec handlePlayAgain w) = false /\
  mounted CDPad (exec handlePlayAgain w) = dpadEnabled (user w) /\
  showPauseMenu (ui (exec handlePlayAgain w)) = showPauseMenu (ui w) /\
  (pauseInvariant (exec handlePlayAgain w) <->
   showPauseMenu (ui w) = false).
Proof.
  intros Hsel. rewrite (handlePlayAgain_selected w sn Hsel).
  unfold pauseInvariant. crush_world w. cbn.
  repeat split; try (destruct dp; reflexivity).
  - intros H. destruct pm; [|reflexivity]. discriminate (H eq_refl).
  - intros H Hpm. congruence.
Qed.

Lemma handlePlayAgain_resumes_play_witness :
  selectedSnake (gameOverWorld 1) = Some (neonSnake (Some 1)) /\
  showPauseMenu (ui (exec handlePlayAgain (gameOverWorld 1))) = true /\
  isPaused (game (exec handlePlayAgain (gameOverWorld 1))) = false /\
  showPauseButton (exec handlePlayAgain (gameOverWorld 1)) = true.
Proof.
  split; [reflexivity|].
  destruct (handlePlayAgain_resumes_play (gameOverWorld 1)
              (neonSnake (Some 1)) eq_refl) as (Hbtn & _ & _ & Hpm & _).
  split; [rewrite Hpm; reflexivity|]. split; [reflexivity | exact Hbtn].
Defined.

(** X8.  Returning to the menu, from any state, leaves the main menu as the
    only screen: the engine host, the HUD, the D-Pad, the game-over dialog
    and the pause menu are gone.  The shop and settings overlays keep their
    state (settings opened from the pause menu stay open over the menu),
    and the active snake, the mode, the key and the registered direction
    handler are kept, not cleared. *)
Theorem handleMainMenu_render rs (w : World) :
  mounted CMainMenu (exec (handleMainMenu rs) w) = true /\
  gameCanvas (exec (handleMainMenu rs) w) = None /\
  mounted CGameCanvas (exec (handleMainMenu rs) w) = false /\
  mounted CGameHUD (exec (handleMainMenu rs) w) = false /\
  mounted CDPad (exec (handleMainMenu rs) w) = false /\
  mounted CGameOverModal (exec (handleMainMenu rs) w) = false /\
  mounted CPauseMenu (exec (handleMainMenu rs) w) = false /\
  mounted CShopModal (exec (handleMainMenu rs) w) = mounted CShopModal w /\
  mounted CSettingsModal (exec (handleMainMenu rs) w)
    = mounted CSettingsModal w /\
  currentSnake (ui (exec (handleMainMenu rs) w)) = currentSnake (ui w) /\
  currentMode (ui (exec (handleMainMenu rs) w)) = currentMode (ui w) /\
  gameKey (ui (exec (handleMainMenu rs) w)) = gameKey (ui w) /\
  directionCallbackRef (exec (handleMainMenu rs) w)
    = directionCallbackRef w.
Proof.
  rewrite handleMainMenu_run. repeat split; reflexivity.
Qed.

(** X9.  Starting a game from the menu callback, from any state, makes the
    given snake and mode the active ones and renders the engine host with
    them under the unchanged key; [startGame] of the session store is
    called exactly once, with that snake and mode and without a level, and
    nothing else is called; overlays and the pending unlock animation are
    untouched. *)
Theorem handleStartGame_mounts sg (snake : SnakeConfig) (mode : GameMode)
    (w : World) :
  gameCanvas (exec (handleStartGame sg snake mode) w)
    = Some (mkCanvasProps (gameKey (ui w)) snake mode) /\
  issued (handleStartGame sg snake mode) w
    = [CallStartGame (Some snake) mode None] /\
  game (exec (handleStartGame sg snake mode) w)
    = sg (Some snake) mode None (game w) /\
  showShop (ui (exec (handleStartGame sg snake mode) w))
    = showShop (ui w) /\
  showSettings (ui (exec (handleStartGame sg snake mode) w))
    = showSettings (ui w) /\
  showPauseMenu (ui (exec (handleStartGame sg snake mode) w))
    = showPauseMenu (ui w) /\
  justUnlockedLevel (ui (exec (handleStartGame sg snake mode) w))
    = justUnlockedLevel (ui w) /\
  snakeInvariant (exec (handleStartGame sg snake mode) w).
Proof.
  assert (Hcalls : calls (exec (handleStartGame sg snake mode) w)
                   = calls w ++ [CallStartGame (Some snake) mode None]).
  { destruct w as [u ? ? ? ? ?]. reflexivity. }
  rewrite (issued_app _ _ _ Hcalls).
  unfold snakeInvariant.
  destruct w as [u ? ? ? ? ?]. repeat split; try reflexivity.
  cbn. intros _. discriminate.
Qed.

(** X10.  Selecting an adventure level while a snake is selected renders the
    engine host with that snake in adventure mode under the unchanged key,
    clears the pending unlock animation, and calls [startGame] exactly once
    with the snake, the adventure mode and the chosen level; the second
    console line reports the level the session store holds after that
    call. *)
Theorem onSelectLevel_mounts sg (lvl : Z) (w : World) (sn : SnakeConfig) :
  selectedSnake w = Some sn ->
  gameCanvas (exec (onSelectLevel sg lvl) w)
    = Some (mkCanvasProps (gameKey (ui w)) sn Adventure) /\
  justUnlockedLevel (ui (exec (onSelectLevel sg lvl) w)) = None /\
  game (exec (onSelectLevel sg lvl) w)
    = sg (Some sn) Adventure (Some lvl) (game w) /\
  issued (onSelectLevel sg lvl) w =
    [CallConsoleLog "[DEBUG App] Starting adventure at level:" lvl;
     CallStartGame (Some sn) Adventure (Some lvl);
     CallConsoleLog "[DEBUG App] After startGame, gameStore level:"
       (level (sg (Some sn) Adventure (Some lvl) (game w)))] /\
  snakeInvariant (exec (onSelectLevel sg lvl) w).
Proof.
  intros Hsel.
  erewrite issued_app by (rewrite onSelectLevel_run; reflexivity).
  rewrite onSelectLevel_run. unfold snakeInvariant. cbn.
  rewrite Hsel. unfold gameCanvas. cbn.
  repeat split; try reflexivity. intros _. discriminate.
Qed.

Lemma onSelectLevel_mounts_witness :
  selectedSnake mapWithSelection = Some (neonSnake (Some 1)) /\
  gameCanvas (exec (onSelectLevel sample_startGame 3) mapWithSelection)
    = Some (mkCanvasProps 7 (neonSnake (Some 1)) Adventure) /\
  level (game (exec (onSelectLevel sample_startGame 3) mapWithSelection)) = 3.
Proof.
  split; [reflexivity|].
  destruct (onSelectLevel_mounts sample_startGame 3 mapWithSelection
              (neonSnake (Some 1)) eq_refl) as (Hc & _ & Hg & _).
  split; [exact Hc | rewrite Hg; reflexivity].
Defined.

(** ** What the handlers leave alone *)

(** X11.  In one step of the application the key of the engine host either
    keeps its value or grows by exactly 1, and it grows only through a
    retry from the game-over dialog with a snake selected and the session's
    lives at 0.  No handler lowers or resets it. *)
Theorem step_gameKey sg rs un (w w' : World) :
  step sg rs un w w' ->
  gameKey (ui w') = gameKey (ui w) \/
  (gameKey (ui w') = gameKey (ui w) + 1 /\
   w' = exec handlePlayAgain w /\
   screen (ui w) = GameOver /\
   lives (game w) = 0 /\
   selectedSnake w <> None).
Proof.
  intros Hstep. destruct Hstep as [e w Hen | w g sel u]; [|left; reflexivity].
  unfold enabled in Hen.
  destruct e; cbn [source mounted handler] in *;
    try (left; destruct w as [[sc ? ? ? cur ? ? ?] ? ? ? ? ?]; reflexivity).
  - (* handleDpadPress *)
    left. unfold exec, handleDpadPress.
    destruct (directionCallbackRef w);
      destruct w as [[sc ? ? ? cur ? ? ?] ? ? ? ? ?]; reflexivity.
  - (* handlePlayAgain *)
    destruct (selectedSnake w) as [sn|] eqn:Hs.
    + destruct (Z.eqb_spec (lives (game w)) 0) as [Hz|Hz].
      * right. split; [|split; [reflexivity|split; [|split]]].
        -- rewrite (handlePlayAgain_selected w sn Hs).
           cbn. apply Z.eqb_eq in Hz. rewrite Hz. reflexivity.
        -- apply andb_true_iff in Hen. destruct Hen as [_ Hen].
           apply (onScreen_true GameOver w Hen).
        -- exact Hz.
        -- discriminate.
      * left. rewrite (handlePlayAgain_selected w sn Hs).
        cbn. apply Z.eqb_neq in Hz. rewrite Hz. reflexivity.
    + left. rewrite (handlePlayAgain_unselected w Hs). reflexivity.
Qed.

Lemma step_gameKey_witness :
  step sample_startGame sample_reset sample_unlockNextLevel
       (gameOverWorld 0) (exec handlePlayAgain (gameOverWorld 0)) /\
  gameKey (ui (exec handlePlayAgain (gameOverWorld 0))) = 4.
Proof.
  assert (Hs : step sample_startGame sample_reset sample_unlockNextLevel
                 (gameOverWorld 0) (exec handlePlayAgain (gameOverWorld 0))).
  { apply (step_event sample_startGame sample_reset sample_unlockNextLevel
             EvPlayAgain). reflexivity. }
  split; [exact Hs|].
  destruct (step_gameKey _ _ _ _ _ Hs) as [Hk | (Hk & _)].
  - discriminate Hk.
  - rewrite Hk. reflexivity.
Defined.

(** X12.  The registered direction handler is never cleared: no callback
    of the component sets the slot back to null, so once the engine has
    registered a handler the slot holds one after every step, also after
    leaving the game screen; the slot changes only when the engine host
    registers a handler. *)
Theorem step_directionCallbackRef sg rs un (w w' : World) :
  step sg rs un w w' ->
  (directionCallbackRef w <> None -> directionCallbackRef w' <> None) /\
  (directionCallbackRef w' = directionCallbackRef w \/
   exists callback,
     mounted CGameCanvas w = true /\
     w' = exec (setDirectionCallback callback) w /\
     directionCallbackRef w' = Some callback).
Proof.
  intros Hstep.
  assert (Hcases :
    directionCallbackRef w' = directionCallbackRef w \/
    exists callback,
      mounted CGameCanvas w = true /\
      w' = exec (setDirectionCallback callback) w /\
      directionCallbackRef w' = Some callback).
  { destruct Hstep as [e w Hen | w g sel u]; [|left; reflexivity].
    unfold enabled in Hen.
    destruct e; cbn [source handler] in *;
      try (left; destruct w as [u r ? ? ? ?]; reflexivity).
    - right. exists callback. destruct w as [u r ? ? ? ?].
      repeat split. exact Hen.
    - left. unfold exec, handleDpadPress.
      destruct (directionCallbackRef w) eqn:Hr;
        destruct w as [u r ? ? ? ?]; cbn in *; congruence.
    - left. destruct (selectedSnake w) as [sn|] eqn:Hs.
      + rewrite (handlePlayAgain_selected w sn Hs). reflexivity.
      + rewrite (handlePlayAgain_unselected w Hs). reflexivity. }
  split; [|exact Hcases].
  intros Hsome. destruct Hcases as [Heq | (cb & _ & _ & Hcb)].
  - rewrite Heq. exact Hsome.
  - rewrite Hcb. discriminate.
Qed.

Lemma step_directionCallbackRef_witness :
  step sample_startGame sample_reset sample_unlockNextLevel
       (gameOverWorld 0) (exec (handleMainMenu sample_reset) (gameOverWorld 0))
  /\ screen (ui (exec (handleMainMenu sample_reset) (gameOverWorld 0))) = Menu
  /\ directionCallbackRef
       (exec (handleMainMenu sample_reset) (gameOverWorld 0)) <> None.
Proof.
  assert (Hs : step sample_startGame sample_reset sample_unlockNextLevel
                 (gameOverWorld 0)
                 (exec (handleMainMenu sample_reset) (gameOverWorld 0))).
  { apply (step_event sample_startGame sample_reset sample_unlockNextLevel
             EvMainMenuFromGameOver). reflexivity. }
  split; [exact Hs|]. split; [reflexivity|].
  apply (proj1 (step_directionCallbackRef _ _ _ _ _ Hs)). discriminate.
Defined.



(** X14.  While the selection store holds a snake at every step, the snake
    invariant holds in every state the application reaches: whenever the
    screen is the game or the game-over screen there is an active snake, so
    the engine host is rendered. *)
Theorem snakeInvariant_with_selection sg rs un (w : World) :
  reachableWithSelection sg rs un w ->
  snakeInvariant w /\
  (screen (ui w) = Game \/ screen (ui w) = GameOver ->
   mounted CGameCanvas w = true).
Proof.
  intros Hreach.
  assert (Hinv : snakeInvariant w).
  { induction Hreach as [g sel u | w w' Hreach IH Hsel Hstep].
    - intros [H|H]; discriminate H.
    - apply (step_snakeInvariant sg rs un w w' Hstep); [|exact IH].
      intros _. exact Hsel. }
  split; [exact Hinv|].
  intros Hscr. specialize (Hinv Hscr).
  crush_world w. cbn in *.
  destruct cur; [|contradiction].
  destruct Hscr as [H|H]; rewrite H; reflexivity.
Qed.

Lemma snakeInvariant_with_selection_witness :
  reachableWithSelection sample_startGame sample_reset sample_unlockNextLevel
    (exec (onSelectLevel sample_startGame 2)
       (exec onOpenAdventureMap
          (initialWorld defaultSession (Some (neonSnake None)) sampleUser)))
  /\
  mounted CGameCanvas
    (exec (onSelectLevel sample_startGame 2)
       (exec onOpenAdventureMap
          (initialWorld defaultSession (Some (neonSnake None)) sampleUser)))
  = true.
Proof.
  assert (Hr : reachableWithSelection sample_startGame sample_reset
                 sample_unlockNextLevel
                 (exec (onSelectLevel sample_startGame 2)
                    (exec onOpenAdventureMap
                       (initialWorld defaultSession (Some (neonSnake None))
                                     sampleUser)))).
  { apply selected_step
      with (w := exec onOpenAdventureMap
                   (initialWorld defaultSession (Some (neonSnake None))
                                 sampleUser)).
    - apply selected_step
        with (w := initialWorld defaultSession (Some (neonSnake None))
                                sampleUser).
      + apply selected_init.
      + discriminate.
      + apply (step_event sample_startGame sample_reset
                 sample_unlockNextLevel EvOpenAdventureMap). reflexivity.
    - discriminate.
    - apply (step_event sample_startGame sample_reset sample_unlockNextLevel
               (EvSelectLevel 2)). reflexivity. }
  split; [exact Hr|].
  apply (proj2 (snakeInvariant_with_selection _ _ _ _ Hr)).
  left. reflexivity.
Defined.

(** ** Composition *)

(** X15.  The overlay handlers compose as independent switches: opening the
    shop and opening the settings commute, opening twice is opening once,
    closing an overlay that was opened from a state where it was closed
    gives that state back, and closing the shop leaves settings that were
    opened from the pause menu open. *)
Theorem overlays_compose (w : World) :
  exec onOpenShop (exec onOpenSettings w)
    = exec onOpenSettings (exec onOpenShop w) /\
  exec onOpenShop (exec onOpenShop w) = exec onOpenShop w /\
  exec onOpenSettings (exec onOpenSettings w) = exec onOpenSettings w /\
  (showShop (ui w) = false -> exec onCloseShop (exec onOpenShop w) = w) /\
  (showSettings (ui w) = false ->
   exec onCloseSettings (exec onOpenSettings w) = w) /\
  showSettings (ui (exec onCloseShop (exec handleOpenSettingsFromPause w)))
    = true.
Proof.
  destruct w as [[sc sh se pm cur md k ju] r g sel us cs].
  repeat split; cbn; intros; subst; reflexivity.
Qed.

Lemma overlays_compose_witness :
  showShop (ui runningWorld) = false /\
  exec onCloseShop (exec onOpenShop runningWorld) = runningWorld.
Proof.
  split; [reflexivity|].
  destruct (overlays_compose runningWorld) as (_ & _ & _ & Hshop & _).
  exact (Hshop eq_refl).
Defined.

(** X16.  The direction slot holds the handler registered last: after two
    registrations a D-Pad press calls the second handler, once, with the
    pressed direction, and never the first; registering changes nothing
    but the slot. *)
Theorem setDirectionCallback_last_wins
    (first second : DirectionCallback) (direction : Direction) (w : World) :
  issued (handleDpadPress direction)
    (exec (setDirectionCallback second) (exec (setDirectionCallback first) w))
    = [CallDirection second direction] /\
  exec (setDirectionCallback second) (exec (setDirectionCallback first) w)
    = exec (setDirectionCallback second) w /\
  exec (setDirectionCallback second) w =
    mkWorld (ui w) (Some second) (game w) (selectedSnake w) (user w)
            (calls w).
Proof.
  destruct w as [u r g sel us cs]. split; [|split; reflexivity].
  apply issued_app. reflexivity.
Qed.

(** X17.  The level number of a level-complete notification is only written
    to the console: what happens to the progress store does not depend on
    it, and nothing de-duplicates notifications, so two of them call
    [unlockNextLevel] twice and apply it twice. *)
Theorem handleAdventureLevelComplete_ignores_level un (l1 l2 : Z)
    (w : World) :
  user (exec (handleAdventureLevelComplete un l1) w)
    = user (exec (handleAdventureLevelComplete un l2) w) /\
  user (exec (handleAdventureLevelComplete un l2)
          (exec (handleAdventureLevelComplete un l1) w))
    = un (un (user w)) /\
  count isCallUnlockNextLevel
    (issued (handleAdventureLevelComplete un l1 ;;
             handleAdventureLevelComplete un l2) w) = 2%nat.
Proof.
  split; [|split].
  - destruct w as [u r g sel us cs]. reflexivity.
  - destruct w as [u r g sel us cs]. reflexivity.
  - erewrite issued_app.
    2:{ destruct w as [u r g sel us cs]. cbn.
        rewrite <- !app_assoc. cbn. reflexivity. }
    reflexivity.
Qed.
